(** * mongotransf: dump one Mongo database and restore it into another

    A shallow embedding of [mongotransf.py].  The script has one function,
    [main], which validates two connection URIs, derives the dump folder,
    formats a [mongodump] and a [mongorestore] command line and runs them
    one after the other through the shell.

    Python strings are [string]; values that may be [None] are [option];
    exceptions are an inductive type; the interactions with the operating
    system (current directory, the existence test, standard output, child
    processes) are recorded as a trace of events by a small monad. *)

From Stdlib Require Import String Ascii List ZArith Bool Lia DecimalString.
Import ListNotations.
Local Open Scope string_scope.

(** ** Python values and exceptions *)

(** The exceptions that can leave [main].  [Exception] carries its message,
    which is the only thing that tells the script's own four errors apart.
    [InvalidURI] is [pymongo.errors.InvalidURI]; [OtherError] stands for any
    other exception class the URI parser may raise. *)
Inductive py_exn : Type :=
| Exception (msg : string)
| TypeError
| KeyError (key : string)
| ValueError
| IndexError
| InvalidURI
| OtherError (name : string).

(** A pure computation that may raise. *)
Definition result (A : Type) : Type := (py_exn + A)%type.

Definition res_bind {A B : Type} (r : result A) (k : A -> result B) : result B :=
  match r with
  | inl e => inl e
  | inr a => k a
  end.

(** [str(x)] for a value that is a string or [None]. *)
Definition str_of_optstr (v : option string) : string :=
  match v with
  | Some s => s
  | None => "None"
  end.

(** [str(n)] for an integer. *)
Definition str_of_int (n : Z) : string := NilZero.string_of_int (Z.to_int n).

(** [str(x)] for a value that is an integer or [None]. *)
Definition str_of_optint (v : option Z) : string :=
  match v with
  | Some n => str_of_int n
  | None => "None"
  end.

(** [a + b] on values that are strings or [None]: concatenation, and a
    [TypeError] as soon as one operand is [None]. *)
Definition str_add (a b : option string) : result string :=
  match a, b with
  | Some x, Some y => inr (x ++ y)
  | _, _ => inl TypeError
  end.

(** [s.startswith(p)] *)
Definition startswith (s p : string) : bool := prefix p s.

(** [s.endswith(p)] *)
Definition endswith (s p : string) : bool :=
  (String.length p <=? String.length s)%nat
  && (substring (String.length s - String.length p) (String.length p) s =? p).

(** ** [str.format] with keyword arguments

    Only plain [{name}] replacement fields and the [{{] and [}}] escapes are
    covered, which is all the three templates of the script use. *)

Inductive fmt_mode : Type :=
| Literal
| Field (name : string)
| Closing.

Fixpoint lookup_kw (name : string) (kwargs : list (string * string)) : option string :=
  match kwargs with
  | [] => None
  | (k, v) :: rest => if k =? name then Some v else lookup_kw name rest
  end.

Definition emit (c : ascii) (r : result string) : result string :=
  match r with
  | inl e => inl e
  | inr s => inr (String c s)
  end.

Definition emit_str (v : string) (r : result string) : result string :=
  match r with
  | inl e => inl e
  | inr s => inr (v ++ s)
  end.

Fixpoint format_from (mode : fmt_mode) (kwargs : list (string * string))
    (template : string) : result string :=
  match template with
  | EmptyString =>
      match mode with
      | Literal => inr ""
      | _ => inl ValueError
      end
  | String c rest =>
      match mode with
      | Literal =>
          if (c =? "{")%char then format_from (Field "") kwargs rest
          else if (c =? "}")%char then format_from Closing kwargs rest
          else emit c (format_from Literal kwargs rest)
      | Field name =>
          if (c =? "{")%char && (name =? "") then
            emit c (format_from Literal kwargs rest)
          else if (c =? "}")%char then
            match lookup_kw name kwargs with
            | Some v => emit_str v (format_from Literal kwargs rest)
            | None => inl (KeyError name)
            end
          else format_from (Field (name ++ String c "")) kwargs rest
      | Closing =>
          if (c =? "}")%char then emit c (format_from Literal kwargs rest)
          else inl ValueError
      end
  end.

Definition format (template : string) (kwargs : list (string * string)) : result string :=
  format_from Literal kwargs template.

(** ** [os.path.join] (POSIX) for two components *)

Definition os_path_join (a b : string) : string :=
  if startswith b "/" then b
  else if (a =? "") || endswith a "/" then a ++ b
  else a ++ "/" ++ b.

(** ** The result of [pymongo.uri_parser.parse_uri]

    The keys of the returned dictionary that the script reads.  A node is a
    [(host, port)] pair; the port of a Unix domain socket is [None]. *)
Record uri_dict : Type := {
  nodelist : list (string * option Z);
  username : option string;
  password : option string;
  database : option string
}.

(** ** Operating system: environment and events *)

(** What the run finds around it: the current directory, which paths exist
    when the script asks, and for each shell command line whether the child
    it starts ever exits ([None]: it never does) and with which status. *)
Record world : Type := {
  cwd : string;
  exists_path : string -> bool;
  child_exit : string -> option Z
}.

Inductive event : Type :=
| Getcwd (answer : string)
| PathExists (path : string) (answer : bool)
| Printed (line : string)
| Launched (command : string)
| Exited (command : string) (status : Z).

Definition trace : Type := list event.

(** How a computation ends: it returns, it raises, or it waits for ever on a
    child that does not exit. *)
Inductive outcome (A : Type) : Type :=
| Return (a : A)
| Raise (e : py_exn)
| Blocked.

Arguments Return {A} a.
Arguments Raise {A} e.
Arguments Blocked {A}.

(** The monad of the script: the events so far and how it ended. *)
Definition M (A : Type) : Type := (trace * outcome A)%type.

Definition ret {A : Type} (a : A) : M A := ([], Return a).

Definition raise {A : Type} (e : py_exn) : M A := ([], Raise e).

Definition bind {A B : Type} (m : M A) (k : A -> M B) : M B :=
  match m with
  | (t, Return a) => let (t', o) := k a in ((t ++ t')%list, o)
  | (t, Raise e) => (t, Raise e)
  | (t, Blocked) => (t, Blocked)
  end.

Definition lift {A : Type} (r : result A) : M A :=
  match r with
  | inl e => raise e
  | inr a => ret a
  end.

Declare Scope py_scope.
Delimit Scope py_scope with py.
Notation "x <- m ;; k" := (bind m (fun x => k))
  (at level 61, m at next level, right associativity) : py_scope.
Notation "m ;;; k" := (bind m (fun _ => k))
  (at level 61, right associativity) : py_scope.
Local Open Scope py_scope.

(** [os.getcwd()], in a current directory that has not been removed. *)
Definition os_getcwd (w : world) : M string :=
  ([Getcwd (cwd w)], Return (cwd w)).

(** [os.path.exists(path)] *)
Definition os_path_exists (w : world) (path : string) : M bool :=
  ([PathExists path (exists_path w path)], Return (exists_path w path)).

(** [print(line)] *)
Definition print (line : string) : M unit := ([Printed line], Return tt).

(** Whether a string holds a NUL byte. *)
Fixpoint has_nul (s : string) : bool :=
  match s with
  | EmptyString => false
  | String c rest => (c =? Ascii.zero)%char || has_nul rest
  end.

(** [subprocess.Popen(command, shell=True, stdout=subprocess.PIPE)]: a
    command line with a NUL byte in it cannot be handed to the shell, the
    call raises [ValueError] (embedded null byte) and no child is started;
    otherwise the child is started and the call returns at once, the handle
    being modelled by the command line.  Failures of the system itself (no
    shell, no memory, a command line beyond the limit of the system) are
    not modelled. *)
Definition Popen (command : string) : M string :=
  if has_nul command then raise ValueError
  else ([Launched command], Return command).

(** [process.wait()]: returns the status once the child has exited. *)
Definition wait (w : world) (process : string) : M Z :=
  match child_exit w process with
  | Some status => ([Exited process status], Return status)
  | None => ([], Blocked)
  end.


(** ** The script *)

Definition MONGODUMP_TEMPLATE : string :=
  "mongodump -h {host} -u {user} -p {password} -d {db} -o {output}/".

Definition MONGORESTORE_TEMPLATE : string :=
  "mongorestore -h {host} -d {destination_db} -u {user} -p {password} {folder}/{origin_db}".

Definition HOST_TEMPLATE : string := "{host}:{port}".

(** The messages of the four exceptions the script raises itself, under the
    names the specification gives to the error kinds. *)
Definition InvalidInputError : py_exn :=
  Exception "Both origin and destination must be Mongo URLs".

Definition InvalidURIError : py_exn :=
  Exception "Mongo URL parsing error!".

Definition PathCollisionError (dump_path : string) : py_exn :=
  Exception ("Destination path " ++ dump_path ++ " already exists!").

Definition UnsupportedTopologyError : py_exn :=
  Exception "Currently, we do not support more than one host".

(** [if collection:] is taken for a non-empty string only. *)
Definition truthy (collection : option string) : bool :=
  match collection with
  | Some c => negb (c =? "")
  | None => false
  end.

(** [nodelist[0]] *)
Definition first_node (nodes : list (string * option Z)) : result (string * option Z) :=
  match nodes with
  | node :: _ => inr node
  | [] => inl IndexError
  end.

(** [HOST_TEMPLATE.format(host=nodelist[0][0], port=str(nodelist[0][1]))] *)
Definition host_string (nodes : list (string * option Z)) : result string :=
  res_bind (first_node nodes) (fun node =>
  format HOST_TEMPLATE [("host", fst node); ("port", str_of_optint (snd node))]).

Section Script.

(** [pymongo.uri_parser.parse_uri], a library function: any parser. *)
Variable parse_uri : string -> result uri_dict.

(** Lines 40-44: both URIs are parsed under one [try]; [InvalidURI] is
    replaced by the script's own exception, anything else goes through. *)
Definition parse_both (origin destination : string) : result (uri_dict * uri_dict) :=
  match
    res_bind (parse_uri origin) (fun o =>
    res_bind (parse_uri destination) (fun d => inr (o, d)))
  with
  | inl InvalidURI => inl InvalidURIError
  | other => other
  end.

(** Lines 34-102 of [main]: validation and the two command lines. *)
Definition build_commands (w : world) (origin destination : string)
    (collection : option string) : M (string * string) :=
  if negb (startswith origin "mongodb://" && startswith destination "mongodb://")
  then raise InvalidInputError
  else
  parsed <- lift (parse_both origin destination) ;;
  let origin := fst parsed in
  let destination := snd parsed in
  dump_folder <- lift (str_add (Some "dump_") (database origin)) ;;
  here <- os_getcwd w ;;
  let dump_path := os_path_join here dump_folder in
  found <- os_path_exists w dump_path ;;
  if found then raise (PathCollisionError dump_path)
  else
  if negb (List.length (nodelist origin) =? 1)%nat
     || negb (List.length (nodelist destination) =? 1)%nat
  then raise UnsupportedTopologyError
  else
  origin_host <- lift (host_string (nodelist origin)) ;;
  mongodump_command <- lift (format MONGODUMP_TEMPLATE
    [("host", origin_host);
     ("user", str_of_optstr (username origin));
     ("password", str_of_optstr (password origin));
     ("db", str_of_optstr (database origin));
     ("output", dump_path)]) ;;
  destination_host <- lift (host_string (nodelist destination)) ;;
  mongorestore_command <-
    (if truthy collection then
       origin_db <- lift (res_bind (str_add (database origin) (Some "/")) (fun s =>
                          res_bind (str_add (Some s) collection) (fun s' =>
                          str_add (Some s') (Some ".bson")))) ;;
       lift (format MONGORESTORE_TEMPLATE
         [("host", destination_host);
          ("user", str_of_optstr (username destination));
          ("password", str_of_optstr (password destination));
          ("destination_db", str_of_optstr (database destination));
          ("folder", dump_path);
          ("origin_db", origin_db)])
     else
       lift (format MONGORESTORE_TEMPLATE
         [("host", destination_host);
          ("user", str_of_optstr (username destination));
          ("password", str_of_optstr (password destination));
          ("destination_db", str_of_optstr (database destination));
          ("folder", dump_path);
          ("origin_db", str_of_optstr (database origin))])) ;;
  if truthy collection then
    dump' <- lift (str_add (Some (mongodump_command ++ " -c ")) collection) ;;
    restore' <- lift (str_add (Some (mongorestore_command ++ " -c ")) collection) ;;
    ret (dump', restore')
  else ret (mongodump_command, mongorestore_command).

(** Lines 104-127 of [main]: the commands are printed, then run in turn. *)
Definition run_commands (w : world) (commands : string * string) : M unit :=
  let mongodump_command := fst commands in
  let mongorestore_command := snd commands in
  print mongodump_command ;;;
  print mongorestore_command ;;;
  print "** Importing from origin **" ;;;
  mongodump <- Popen mongodump_command ;;
  wait w mongodump ;;;
  print "** Exporting to destination **" ;;;
  mongorestore <- Popen mongorestore_command ;;
  wait w mongorestore ;;;
  print "Done!".

(** [main(origin, destination, collection=None)] *)
Definition main (w : world) (origin destination : string)
    (collection : option string) : M unit :=
  commands <- build_commands w origin destination collection ;;
  run_commands w commands.

(** The [__main__] block: [argparse] hands over three strings. *)
Definition script (w : world) (origin destination collection : string) : M unit :=
  main w origin destination (Some collection).

End Script.

(** Lines 47-48: the folder the dump is written to, from the current
    directory and the name of the origin database. *)
Definition dump_path (w : world) (db : string) : string :=
  os_path_join (cwd w) ("dump_" ++ db).

(** A current directory as [os.getcwd] gives it anywhere but at the root:
    not empty and without a trailing separator. *)
Definition plain_dir (dir : string) : bool :=
  negb (dir =? "") && negb (endswith dir "/").

(** The suffix a collection adds to both commands (lines 100-102). *)
Definition collection_flag (collection : option string) : string :=
  if truthy collection then " -c " ++ str_of_optstr collection else "".

(** What a collection adds to the path [mongorestore] reads (line 87). *)
Definition collection_file (collection : option string) : string :=
  if truthy collection then "/" ++ str_of_optstr collection ++ ".bson" else "".

(** The events of a trace that concern child processes. *)
Definition is_process_event (e : event) : bool :=
  match e with
  | Launched _ | Exited _ _ => true
  | _ => false
  end.

Definition process_events (t : trace) : trace := filter is_process_event t.

(** The path tests of a trace. *)
Definition is_path_check (e : event) : bool :=
  match e with
  | PathExists _ _ => true
  | _ => false
  end.

(** ** Concrete runs

    A parser given by a table: the dictionaries [parse_uri] returns for the
    URIs used in the examples below; a URI outside the table is taken to be
    refused with [InvalidURI]. *)

Definition single (host : string) (port : Z) (user pass db : string) : uri_dict :=
  {| nodelist := [(host, Some port)];
     username := Some user;
     password := Some pass;
     database := Some db |}.

Definition uri_table : list (string * uri_dict) :=
  [ ("mongodb://u1:p1@a:27017/foo", single "a" 27017 "u1" "p1" "foo");
    ("mongodb://u2:p2@b:27017/bar", single "b" 27017 "u2" "p2" "bar");
    ("mongodb://u1:p1@a:27017,c:27018/foo",
       {| nodelist := [("a", Some 27017%Z); ("c", Some 27018%Z)];
          username := Some "u1";
          password := Some "p1";
          database := Some "foo" |});
    ("mongodb://u1:p1@a:27017",
       {| nodelist := [("a", Some 27017%Z)];
          username := Some "u1";
          password := Some "p1";
          database := None |}) ].

Fixpoint table_parse_uri (table : list (string * uri_dict)) (uri : string) : result uri_dict :=
  match table with
  | [] => inl InvalidURI
  | (u, d) :: rest => if u =? uri then inr d else table_parse_uri rest uri
  end.

Definition example_parse_uri : string -> result uri_dict := table_parse_uri uri_table.

(** A directory with no dump in it; both tools exit with the given status. *)
Definition fresh_world (status : Z) : world :=
  {| cwd := "/home/user";
     exists_path := fun _ => false;
     child_exit := fun _ => Some status |}.

(** The same directory after an earlier dump of database [foo]. *)
Definition used_world : world :=
  {| cwd := "/home/user";
     exists_path := fun p => p =? "/home/user/dump_foo";
     child_exit := fun _ => Some 0%Z |}.

(** ** The command lines as the specification gives them

    [mongodump -h <host:port> -u <user> -p <password> -d <database>
    -o <output-dir>/] and [mongorestore -h <host:port> -d <database>
    -u <user> -p <password> <dump-dir>/<origin-database>[/<collection>.bson]],
    each with an optional [ -c <collection>] suffix. *)

Definition spec_dump_command (host_port user pass db output : string)
    (collection : option string) : string :=
  "mongodump -h " ++ host_port ++ " -u " ++ user ++ " -p " ++ pass
  ++ " -d " ++ db ++ " -o " ++ output ++ "/" ++ collection_flag collection.

Definition spec_restore_command (host_port db user pass dump_dir origin_db : string)
    (collection : option string) : string :=
  "mongorestore -h " ++ host_port ++ " -d " ++ db ++ " -u " ++ user
  ++ " -p " ++ pass ++ " " ++ dump_dir ++ "/" ++ origin_db
  ++ collection_file collection ++ collection_flag collection.

(** The command lines of a run whose URIs parse to [o] and [d], with one
    node each. *)
Definition dump_command_of (w : world) (o : uri_dict) (node : string * option Z)
    (db : string) (collection : option string) : string :=
  spec_dump_command (fst node ++ ":" ++ str_of_optint (snd node))
    (str_of_optstr (username o)) (str_of_optstr (password o)) db
    (dump_path w db) collection.

Definition restore_command_of (w : world) (d : uri_dict) (node : string * option Z)
    (db : string) (collection : option string) : string :=
  spec_restore_command (fst node ++ ":" ++ str_of_optint (snd node))
    (str_of_optstr (database d)) (str_of_optstr (username d))
    (str_of_optstr (password d)) (dump_path w db) db collection.

(** The events of validation when it gets as far as the path test. *)
Definition checks (w : world) (db : string) : trace :=
  [Getcwd (cwd w); PathExists (dump_path w db) (exists_path w (dump_path w db))].

(** The rejection of several hosts read as a step of URI parsing: whenever
    both URIs have the scheme and parse, and one of them names more than
    one host, the run ends with the topology error and no path has been
    tested on the way. *)
Definition multi_host_rejected_while_parsing : Prop :=
  forall (parse_uri : string -> result uri_dict) (w : world)
         (origin destination : string) (collection : option string)
         (o d : uri_dict),
    startswith origin "mongodb://" = true ->
    startswith destination "mongodb://" = true ->
    parse_uri origin = inr o ->
    parse_uri destination = inr d ->
    (1 < List.length (nodelist o) \/ 1 < List.length (nodelist d))%nat ->
    exists t,
      main parse_uri w origin destination collection
      = (t, Raise UnsupportedTopologyError)
      /\ filter is_path_check t = [].

(** The database name [fo\0o]: two letters, a NUL byte, one letter. *)
Definition nul_database : string :=
  String "f" (String "o" (String Ascii.zero (String "o" ""))).

(** The table with two URIs more, for what [parse_uri] does on them: a
    percent-escaped NUL in the database name is decoded, and a port that is
    not a number makes the parser raise [ValueError]. *)
Definition wider_parse_uri (uri : string) : result uri_dict :=
  if uri =? "mongodb://u1:p1@a:27017/fo%00o" then
    inr (single "a" 27017 "u1" "p1" nul_database)
  else if uri =? "mongodb://a:port/foo" then inl ValueError
  else example_parse_uri uri.


(** The parsing error for every body the parser cannot take apart:
    whenever both strings have the scheme and the parser raises on one of
    them, whatever it raises, the run ends with the parsing error. *)
Definition malformed_body_gives_parsing_error : Prop :=
  forall (parse_uri : string -> result uri_dict) (w : world)
         (origin destination : string) (collection : option string)
         (e : py_exn),
    startswith origin "mongodb://" = true ->
    startswith destination "mongodb://" = true ->
    parse_uri origin = inl e \/ parse_uri destination = inl e ->
    exists t,
      main parse_uri w origin destination collection
      = (t, Raise InvalidURIError).

(** ** Strings *)

Lemma append_empty_r (s : string) : s ++ "" = s.
Proof. induction s as [|c s IH]; simpl; [reflexivity | now rewrite IH]. Qed.

Lemma append_assoc (a b c : string) : (a ++ b) ++ c = a ++ b ++ c.
Proof. induction a as [|x a IH]; simpl; [reflexivity | now rewrite IH]. Qed.

(** ** Formatting the three templates *)

Lemma format_host (h p : string) :
  format HOST_TEMPLATE [("host", h); ("port", p)] = inr (h ++ ":" ++ p).
Proof. cbn. now rewrite append_empty_r. Qed.

Lemma format_mongodump (h u p d o : string) :
  format MONGODUMP_TEMPLATE
    [("host", h); ("user", u); ("password", p); ("db", d); ("output", o)]
  = inr ("mongodump -h " ++ h ++ " -u " ++ u ++ " -p " ++ p ++ " -d " ++ d
         ++ " -o " ++ o ++ "/").
Proof. reflexivity. Qed.

Lemma format_mongorestore (h u p d f o : string) :
  format MONGORESTORE_TEMPLATE
    [("host", h); ("user", u); ("password", p); ("destination_db", d);
     ("folder", f); ("origin_db", o)]
  = inr ("mongorestore -h " ++ h ++ " -d " ++ d ++ " -u " ++ u ++ " -p " ++ p
         ++ " " ++ f ++ "/" ++ o).
Proof. cbn. now rewrite append_empty_r. Qed.

(** ** The two stages of [main] *)

Section Stages.

Variable parse_uri : string -> result uri_dict.
Variable w : world.

Lemma main_raises origin destination collection t e :
  build_commands parse_uri w origin destination collection = (t, Raise e) ->
  main parse_uri w origin destination collection = (t, Raise e).
Proof. intros H. unfold main. now rewrite H. Qed.

Lemma main_runs origin destination collection t commands :
  build_commands parse_uri w origin destination collection = (t, Return commands) ->
  main parse_uri w origin destination collection
  = ((t ++ fst (run_commands w commands))%list, snd (run_commands w commands)).
Proof.
  intros H. unfold main. rewrite H. cbn [bind].
  now destruct (run_commands w commands).
Qed.

Lemma build_commands_valid origin destination collection o d db h1 p1 h2 p2 :
  startswith origin "mongodb://" = true ->
  startswith destination "mongodb://" = true ->
  parse_uri origin = inr o ->
  parse_uri destination = inr d ->
  database o = Some db ->
  nodelist o = [(h1, p1)] ->
  nodelist d = [(h2, p2)] ->
  exists_path w (dump_path w db) = false ->
  build_commands parse_uri w origin destination collection
  = ([Getcwd (cwd w); PathExists (dump_path w db) false],
     Return (dump_command_of w o (h1, p1) db collection,
             restore_command_of w d (h2, p2) db collection)).
Proof.
  intros Ho Hd Po Pd Hdb No Nd Hfree.
  unfold build_commands, parse_both.
  rewrite Ho, Hd, Po, Pd. cbn [negb andb res_bind lift ret bind fst snd].
  rewrite Hdb. cbn [str_add lift ret bind os_getcwd os_path_exists].
  fold (dump_path w db). rewrite Hfree, No, Nd.
  cbn [List.length Nat.eqb negb orb host_string first_node res_bind fst snd].
  rewrite !format_host. cbn [lift ret bind].
  rewrite format_mongodump. cbn [lift ret bind str_of_optstr].
  unfold dump_command_of, restore_command_of, spec_dump_command,
    spec_restore_command, collection_flag, collection_file.
  cbn [fst snd].
  destruct (truthy collection) eqn:Hc.
  - destruct collection as [c|]; [|discriminate].
    cbn [str_add res_bind lift ret bind str_of_optstr].
    rewrite format_mongorestore. cbn [lift ret bind app].
    repeat rewrite !append_assoc. reflexivity.
  - rewrite format_mongorestore. cbn [lift ret bind app].
    repeat rewrite !append_assoc. rewrite !append_empty_r. reflexivity.
Qed.

End Stages.

(** ** Rejections *)

Section Rejections.

Variable parse_uri : string -> result uri_dict.
Variable w : world.

Lemma build_commands_bad_scheme origin destination collection :
  startswith origin "mongodb://" = false
  \/ startswith destination "mongodb://" = false ->
  build_commands parse_uri w origin destination collection
  = ([], Raise InvalidInputError).
Proof.
  intros H. unfold build_commands.
  destruct H as [H|H]; rewrite H; [reflexivity|].
  now rewrite andb_false_r.
Qed.

Lemma build_commands_parsed origin destination collection o d :
  startswith origin "mongodb://" = true ->
  startswith destination "mongodb://" = true ->
  parse_uri origin = inr o ->
  parse_uri destination = inr d ->
  build_commands parse_uri w origin destination collection
  = match database o with
    | None => ([], Raise TypeError)
    | Some db =>
        if exists_path w (dump_path w db) then
          ([Getcwd (cwd w); PathExists (dump_path w db) true],
           Raise (PathCollisionError (dump_path w db)))
        else if negb (List.length (nodelist o) =? 1)%nat
                || negb (List.length (nodelist d) =? 1)%nat then
          ([Getcwd (cwd w); PathExists (dump_path w db) false],
           Raise UnsupportedTopologyError)
        else build_commands parse_uri w origin destination collection
    end.
Proof.
  intros Ho Hd Po Pd.
  destruct (database o) as [db|] eqn:Hdb.
  - destruct (exists_path w (dump_path w db)) eqn:Hex;
      [|destruct (negb (List.length (nodelist o) =? 1)%nat
                  || negb (List.length (nodelist d) =? 1)%nat) eqn:Hn;
        [|reflexivity]];
      unfold build_commands, parse_both;
      rewrite Ho, Hd, Po, Pd; cbn [negb andb res_bind lift ret bind fst snd];
      rewrite Hdb; cbn [str_add lift ret bind os_getcwd os_path_exists];
      fold (dump_path w db); rewrite Hex; [reflexivity|].
    rewrite Hn. reflexivity.
  - unfold build_commands, parse_both.
    rewrite Ho, Hd, Po, Pd. cbn [negb andb res_bind lift ret bind fst snd].
    rewrite Hdb. reflexivity.
Qed.

End Rejections.

(** ** What validation can do *)

Ltac run_step :=
  cbn [lift bind ret raise fst snd app os_getcwd os_path_exists];
  match goal with
  | |- context [lift ?r] => destruct r
  | |- context [if ?b then _ else _] => destruct b eqn:?
  end.

Section Shape.

Variable parse_uri : string -> result uri_dict.
Variable w : world.

(** Validation touches the system only through [os.getcwd] and one call
    of [os.path.exists], in this order, and it never waits on a child. *)
Lemma build_commands_shape origin destination collection :
  snd (build_commands parse_uri w origin destination collection) <> Blocked
  /\ (fst (build_commands parse_uri w origin destination collection) = []
      \/ exists p,
           fst (build_commands parse_uri w origin destination collection)
           = [Getcwd (cwd w); PathExists p (exists_path w p)]).
Proof.
  unfold build_commands.
  repeat run_step;
    cbn [lift bind ret raise fst snd app os_getcwd os_path_exists];
    (split; [discriminate|]);
    first [ now left
          | match goal with
            | H : exists_path w ?p = _ |- _ =>
                right; exists p; rewrite H; reflexivity
            end ].
Qed.

End Shape.

Lemma dump_path_plain (w : world) (db : string) :
  plain_dir (cwd w) = true -> dump_path w db = cwd w ++ "/dump_" ++ db.
Proof.
  unfold plain_dir, dump_path, os_path_join. intros H.
  apply andb_prop in H. destruct H as [Hne Hsep].
  apply negb_true_iff in Hne. apply negb_true_iff in Hsep.
  rewrite Hne, Hsep. reflexivity.
Qed.

(** ** Errors of validation *)

(** C7: when the origin or the destination does not start with
    [mongodb://], whatever the other string, the parser and the file
    system are, the run ends with the scheme error (InvalidInputError);
    nothing was parsed, no path was read or tested, no command was built or
    printed and no process was started: the trace is empty. *)
Theorem bad_scheme_rejected_first
    (parse_uri : string -> result uri_dict) (w : world)
    (origin destination : string) (collection : option string) :
  startswith origin "mongodb://" = false
  \/ startswith destination "mongodb://" = false ->
  build_commands parse_uri w origin destination collection
  = ([], Raise InvalidInputError)
  /\ main parse_uri w origin destination collection
     = ([], Raise InvalidInputError).
Proof.
  intros H.
  pose proof (build_commands_bad_scheme parse_uri w origin destination collection H) as B.
  split; [exact B | now apply main_raises].
Qed.

Lemma bad_scheme_rejected_first_origin :
  main example_parse_uri used_world "http://u1:p1@a:27017/foo"
    "mongodb://u2:p2@b:27017/bar" (Some "users")
  = ([], Raise InvalidInputError).
Proof.
  apply (bad_scheme_rejected_first example_parse_uri used_world
           "http://u1:p1@a:27017/foo" "mongodb://u2:p2@b:27017/bar"
           (Some "users")).
  left. reflexivity.
Defined.

(** C8 (as the code has it): when both strings have the scheme and the
    parser refuses one of them with [InvalidURI] (the origin, or the
    destination once the origin has not failed in another way), the run
    ends with the parsing error (InvalidURIError) before any path is
    tested, any command is built and any process is started.  [InvalidURI]
    is the only exception of the parser that is turned into the parsing
    error. *)
Theorem malformed_uri_rejected
    (parse_uri : string -> result uri_dict) (w : world)
    (origin destination : string) (collection : option string) :
  startswith origin "mongodb://" = true ->
  startswith destination "mongodb://" = true ->
  parse_uri origin = inl InvalidURI
  \/ (parse_uri destination = inl InvalidURI
      /\ forall e, parse_uri origin = inl e -> e = InvalidURI) ->
  build_commands parse_uri w origin destination collection
  = ([], Raise InvalidURIError)
  /\ main parse_uri w origin destination collection
     = ([], Raise InvalidURIError).
Proof.
  intros Ho Hd H.
  assert (B : build_commands parse_uri w origin destination collection
              = ([], Raise InvalidURIError)).
  { unfold build_commands, parse_both. rewrite Ho, Hd.
    cbn [negb andb].
    destruct H as [H|[H Hother]].
    - rewrite H. reflexivity.
    - destruct (parse_uri origin) as [e|o] eqn:Po.
      + rewrite (Hother e eq_refl). reflexivity.
      + cbn [res_bind]. rewrite H. reflexivity. }
  split; [exact B | now apply main_raises].
Qed.

Lemma malformed_uri_rejected_destination :
  main example_parse_uri (fresh_world 0) "mongodb://u1:p1@a:27017/foo"
    "mongodb://" None
  = ([], Raise InvalidURIError).
Proof.
  apply (malformed_uri_rejected example_parse_uri (fresh_world 0)
           "mongodb://u1:p1@a:27017/foo" "mongodb://" None).
  - reflexivity.
  - reflexivity.
  - right. split; [reflexivity|]. intros e H. vm_compute in H. discriminate H.
Defined.

(** C8 as stated does not hold: a body the parser cannot take apart
    because the port is not a number makes the parser raise [ValueError],
    which [main] does not catch; the run ends with that [ValueError] and
    not with the parsing error. *)
Lemma malformed_port_not_a_parsing_error :
  ~ malformed_body_gives_parsing_error.
Proof.
  intros H.
  destruct (H wider_parse_uri (fresh_world 0)
              "mongodb://a:port/foo" "mongodb://u2:p2@b:27017/bar" None
              ValueError eq_refl eq_refl (or_introl eq_refl))
    as [t E].
  vm_compute in E. discriminate E.
Qed.

(** C10: when both URIs have the scheme and parse, and the origin has no
    database (the parsed field is [None]), the run ends with a [TypeError]
    at the derivation of the dump folder; this is none of the four errors
    of the script, and nothing was read from the system, printed or started
    before. *)
Theorem missing_database_type_error
    (parse_uri : string -> result uri_dict) (w : world)
    (origin destination : string) (collection : option string)
    (o d : uri_dict) :
  startswith origin "mongodb://" = true ->
  startswith destination "mongodb://" = true ->
  parse_uri origin = inr o ->
  parse_uri destination = inr d ->
  database o = None ->
  main parse_uri w origin destination collection = ([], Raise TypeError)
  /\ TypeError <> InvalidInputError
  /\ TypeError <> InvalidURIError
  /\ TypeError <> UnsupportedTopologyError
  /\ forall p, TypeError <> PathCollisionError p.
Proof.
  intros Ho Hd Po Pd Hdb. split.
  - apply main_raises.
    rewrite (build_commands_parsed parse_uri w origin destination collection o d
               Ho Hd Po Pd), Hdb.
    reflexivity.
  - repeat split; discriminate.
Qed.

Lemma missing_database_type_error_example :
  main example_parse_uri (fresh_world 0) "mongodb://u1:p1@a:27017"
    "mongodb://u2:p2@b:27017/bar" None
  = ([], Raise TypeError).
Proof.
  apply (missing_database_type_error example_parse_uri (fresh_world 0)
           "mongodb://u1:p1@a:27017" "mongodb://u2:p2@b:27017/bar" None
           {| nodelist := [("a", Some 27017%Z)];
              username := Some "u1";
              password := Some "p1";
              database := None |}
           (single "b" 27017 "u2" "p2" "bar"));
    reflexivity.
Defined.

Section PathCheck.

Variable parse_uri : string -> result uri_dict.
Variable w : world.

(** Once both URIs are parsed and the origin names a database, validation
    reads the current directory and tests the dump path, and does nothing
    else to the system. *)
Lemma build_commands_checks origin destination collection o d db :
  startswith origin "mongodb://" = true ->
  startswith destination "mongodb://" = true ->
  parse_uri origin = inr o ->
  parse_uri destination = inr d ->
  database o = Some db ->
  fst (build_commands parse_uri w origin destination collection) = checks w db.
Proof.
  intros Ho Hd Po Pd Hdb.
  unfold build_commands, parse_both.
  rewrite Ho, Hd, Po, Pd. cbn [negb andb res_bind lift ret bind fst snd].
  rewrite Hdb. cbn [str_add lift ret bind os_getcwd os_path_exists].
  fold (dump_path w db).
  repeat run_step;
    cbn [lift bind ret raise fst snd app os_getcwd os_path_exists];
    unfold checks;
    match goal with
    | H : exists_path w _ = _ |- _ => rewrite H; reflexivity
    end.
Qed.

Lemma main_extends_build_commands origin destination collection :
  exists rest,
    fst (main parse_uri w origin destination collection)
    = (fst (build_commands parse_uri w origin destination collection) ++ rest)%list.
Proof.
  unfold main.
  destruct (build_commands parse_uri w origin destination collection)
    as [t [commands|e|]]; cbn [bind fst].
  - destruct (run_commands w commands) as [t' out]. now exists t'.
  - exists []. now rewrite app_nil_r.
  - exists []. now rewrite app_nil_r.
Qed.

End PathCheck.

(** C6: for an origin whose database is [db], whatever the destination
    parses to, the path the run tests is the join of the current directory
    and [dump_<db>] (which reads [<cwd>/dump_<db>] for a current directory
    other than the root); when that path exists the run ends there with the
    collision error (PathCollisionError): no command was built or printed
    and no process was started. *)
Theorem dump_path_collision
    (parse_uri : string -> result uri_dict) (w : world)
    (origin destination : string) (collection : option string)
    (o d : uri_dict) (db : string) :
  startswith origin "mongodb://" = true ->
  startswith destination "mongodb://" = true ->
  parse_uri origin = inr o ->
  parse_uri destination = inr d ->
  database o = Some db ->
  (exists rest,
     fst (main parse_uri w origin destination collection)
     = ([Getcwd (cwd w);
         PathExists (os_path_join (cwd w) ("dump_" ++ db))
           (exists_path w (os_path_join (cwd w) ("dump_" ++ db)))] ++ rest)%list)
  /\ (plain_dir (cwd w) = true ->
      os_path_join (cwd w) ("dump_" ++ db) = cwd w ++ "/dump_" ++ db)
  /\ (exists_path w (os_path_join (cwd w) ("dump_" ++ db)) = true ->
      build_commands parse_uri w origin destination collection
      = ([Getcwd (cwd w); PathExists (os_path_join (cwd w) ("dump_" ++ db)) true],
         Raise (PathCollisionError (os_path_join (cwd w) ("dump_" ++ db))))
      /\ main parse_uri w origin destination collection
         = ([Getcwd (cwd w); PathExists (os_path_join (cwd w) ("dump_" ++ db)) true],
            Raise (PathCollisionError (os_path_join (cwd w) ("dump_" ++ db))))).
Proof.
  intros Ho Hd Po Pd Hdb. fold (dump_path w db). split; [|split].
  - destruct (main_extends_build_commands parse_uri w origin destination collection)
      as [rest E].
    exists rest. rewrite E.
    now rewrite (build_commands_checks parse_uri w origin destination collection
                   o d db Ho Hd Po Pd Hdb).
  - apply dump_path_plain.
  - intros Hex.
    assert (B : build_commands parse_uri w origin destination collection
                = ([Getcwd (cwd w); PathExists (dump_path w db) true],
                   Raise (PathCollisionError (dump_path w db)))).
    { rewrite (build_commands_parsed parse_uri w origin destination collection o d
                 Ho Hd Po Pd), Hdb, Hex.
      reflexivity. }
    split; [exact B | now apply main_raises].
Qed.

Lemma dump_path_collision_example :
  main example_parse_uri used_world "mongodb://u1:p1@a:27017/foo"
    "mongodb://u2:p2@b:27017/bar" (Some "users")
  = ([Getcwd "/home/user"; PathExists "/home/user/dump_foo" true],
     Raise (Exception "Destination path /home/user/dump_foo already exists!")).
Proof.
  apply (dump_path_collision example_parse_uri used_world
           "mongodb://u1:p1@a:27017/foo" "mongodb://u2:p2@b:27017/bar"
           (Some "users") (single "a" 27017 "u1" "p1" "foo")
           (single "b" 27017 "u2" "p2" "bar") "foo"
           eq_refl eq_refl eq_refl eq_refl eq_refl).
  reflexivity.
Defined.

(** C5 (as the code has it): when both URIs have the scheme and parse, the
    origin names a database, the dump path does not exist yet, and the node
    list of either URI does not have exactly one entry, the run ends with
    the topology error (UnsupportedTopologyError).  The rejection comes
    after the current directory was read and the dump path was tested, and
    before any command is built or printed and any process is started. *)
Theorem multi_host_rejected_after_path_check
    (parse_uri : string -> result uri_dict) (w : world)
    (origin destination : string) (collection : option string)
    (o d : uri_dict) (db : string) :
  startswith origin "mongodb://" = true ->
  startswith destination "mongodb://" = true ->
  parse_uri origin = inr o ->
  parse_uri destination = inr d ->
  database o = Some db ->
  exists_path w (dump_path w db) = false ->
  List.length (nodelist o) <> 1%nat \/ List.length (nodelist d) <> 1%nat ->
  build_commands parse_uri w origin destination collection
  = ([Getcwd (cwd w); PathExists (dump_path w db) false],
     Raise UnsupportedTopologyError)
  /\ main parse_uri w origin destination collection
     = ([Getcwd (cwd w); PathExists (dump_path w db) false],
        Raise UnsupportedTopologyError).
Proof.
  intros Ho Hd Po Pd Hdb Hfree Hn.
  assert (B : build_commands parse_uri w origin destination collection
              = ([Getcwd (cwd w); PathExists (dump_path w db) false],
                 Raise UnsupportedTopologyError)).
  { rewrite (build_commands_parsed parse_uri w origin destination collection o d
               Ho Hd Po Pd), Hdb, Hfree.
    assert (T : negb (List.length (nodelist o) =? 1)%nat
                || negb (List.length (nodelist d) =? 1)%nat = true).
    { apply orb_true_iff.
      destruct Hn as [Hn|Hn]; [left|right];
        apply negb_true_iff, Nat.eqb_neq; exact Hn. }
    rewrite T. reflexivity. }
  split; [exact B | now apply main_raises].
Qed.

Lemma multi_host_rejected_after_path_check_example :
  main example_parse_uri (fresh_world 0) "mongodb://u1:p1@a:27017,c:27018/foo"
    "mongodb://u2:p2@b:27017/bar" None
  = ([Getcwd "/home/user"; PathExists "/home/user/dump_foo" false],
     Raise UnsupportedTopologyError).
Proof.
  apply (multi_host_rejected_after_path_check example_parse_uri (fresh_world 0)
           "mongodb://u1:p1@a:27017,c:27018/foo" "mongodb://u2:p2@b:27017/bar"
           None
           {| nodelist := [("a", Some 27017%Z); ("c", Some 27018%Z)];
              username := Some "u1";
              password := Some "p1";
              database := Some "foo" |}
           (single "b" 27017 "u2" "p2" "bar") "foo"
           eq_refl eq_refl eq_refl eq_refl eq_refl eq_refl).
  left. simpl. discriminate.
Defined.

(** C5 as stated does not hold: with two hosts in the origin and a dump
    folder left by an earlier run, the path is tested first and the run
    ends with the collision error. *)
Lemma multi_host_not_rejected_while_parsing :
  ~ multi_host_rejected_while_parsing.
Proof.
  intros H.
  destruct (H example_parse_uri used_world
              "mongodb://u1:p1@a:27017,c:27018/foo" "mongodb://u2:p2@b:27017/bar"
              None
              {| nodelist := [("a", Some 27017%Z); ("c", Some 27018%Z)];
                 username := Some "u1";
                 password := Some "p1";
                 database := Some "foo" |}
              (single "b" 27017 "u2" "p2" "bar")
              eq_refl eq_refl eq_refl eq_refl
              (or_introl (le_n 2)))
    as [t [E _]].
  vm_compute in E. discriminate E.
Qed.

(** ** Running the commands *)

Lemma has_nul_append (a b : string) :
  has_nul (a ++ b) = has_nul a || has_nul b.
Proof.
  induction a as [|c a IH]; cbn [append has_nul]; [reflexivity|].
  now rewrite IH, orb_assoc.
Qed.

Lemma has_nul_join (a b : string) :
  has_nul a = false -> has_nul b = false -> has_nul (os_path_join a b) = false.
Proof.
  intros Ha Hb. unfold os_path_join.
  destruct (startswith b "/"); [exact Hb|].
  destruct ((a =? "") || endswith a "/");
    rewrite !has_nul_append, Ha, Hb; reflexivity.
Qed.

Lemma run_commands_cases (w : world) (dump restore : string) :
  run_commands w (dump, restore)
  = if has_nul dump then
      ([Printed dump; Printed restore; Printed "** Importing from origin **"],
       Raise ValueError)
    else
      match child_exit w dump with
      | None =>
          ([Printed dump; Printed restore; Printed "** Importing from origin **";
            Launched dump],
           Blocked)
      | Some s1 =>
          if has_nul restore then
            ([Printed dump; Printed restore;
              Printed "** Importing from origin **";
              Launched dump; Exited dump s1;
              Printed "** Exporting to destination **"],
             Raise ValueError)
          else
            match child_exit w restore with
            | None =>
                ([Printed dump; Printed restore;
                  Printed "** Importing from origin **";
                  Launched dump; Exited dump s1;
                  Printed "** Exporting to destination **";
                  Launched restore],
                 Blocked)
            | Some s2 =>
                ([Printed dump; Printed restore;
                  Printed "** Importing from origin **";
                  Launched dump; Exited dump s1;
                  Printed "** Exporting to destination **";
                  Launched restore; Exited restore s2;
                  Printed "Done!"],
                 Return tt)
            end
      end.
Proof.
  unfold run_commands, wait, Popen. cbn [fst snd print bind app].
  destruct (has_nul dump); [reflexivity|]. cbn [bind app].
  destruct (child_exit w dump) as [s1|]; [|reflexivity].
  cbn [bind app print].
  destruct (has_nul restore); [reflexivity|]. cbn [bind app].
  destruct (child_exit w restore) as [s2|]; reflexivity.
Qed.

Lemma run_commands_prints (w : world) (dump restore : string) :
  exists rest,
    fst (run_commands w (dump, restore))
    = ([Printed dump; Printed restore; Printed "** Importing from origin **"]
       ++ rest)%list.
Proof.
  rewrite run_commands_cases.
  destruct (has_nul dump);
    [|destruct (child_exit w dump) as [s1|];
      [destruct (has_nul restore);
       [|destruct (child_exit w restore) as [s2|]]|]];
    cbn [fst app]; eexists; reflexivity.
Qed.

Lemma run_commands_starts (w : world) (dump restore : string) :
  has_nul dump = false ->
  exists rest,
    fst (run_commands w (dump, restore))
    = ([Printed dump; Printed restore; Printed "** Importing from origin **";
        Launched dump] ++ rest)%list.
Proof.
  intros Hclean. rewrite run_commands_cases, Hclean.
  destruct (child_exit w dump) as [s1|];
    [destruct (has_nul restore);
     [|destruct (child_exit w restore) as [s2|]]|];
    cbn [fst app]; eexists; reflexivity.
Qed.

(** ** The command lines *)

(** C1: with origin [a:27017], user [u1], password [p1], database [foo],
    and destination [b:27017], user [u2], password [p2], database [bar],
    no collection and no dump folder in the way, the commands built are
    exactly [mongodump -h a:27017 -u u1 -p p1 -d foo -o <cwd>/dump_foo/]
    and [mongorestore -h b:27017 -d bar -u u2 -p p2 <cwd>/dump_foo/foo],
    where [<cwd>/dump_foo] is the join of the current directory and
    [dump_foo]; they are what the run prints, and the first is what it
    starts first (the name of the current directory holding no NUL
    byte). *)
Theorem commands_without_collection
    (parse_uri : string -> result uri_dict) (w : world)
    (origin destination : string) :
  startswith origin "mongodb://" = true ->
  startswith destination "mongodb://" = true ->
  parse_uri origin = inr (single "a" 27017 "u1" "p1" "foo") ->
  parse_uri destination = inr (single "b" 27017 "u2" "p2" "bar") ->
  exists_path w (os_path_join (cwd w) "dump_foo") = false ->
  let folder := os_path_join (cwd w) "dump_foo" in
  let dump := "mongodump -h a:27017 -u u1 -p p1 -d foo -o " ++ folder ++ "/" in
  let restore := "mongorestore -h b:27017 -d bar -u u2 -p p2 " ++ folder ++ "/foo" in
  build_commands parse_uri w origin destination None
  = ([Getcwd (cwd w); PathExists folder false], Return (dump, restore))
  /\ (exists rest,
        fst (main parse_uri w origin destination None)
        = ([Getcwd (cwd w); PathExists folder false;
            Printed dump; Printed restore;
            Printed "** Importing from origin **"] ++ rest)%list)
  /\ (has_nul (cwd w) = false ->
      exists rest,
        fst (main parse_uri w origin destination None)
        = ([Getcwd (cwd w); PathExists folder false;
            Printed dump; Printed restore;
            Printed "** Importing from origin **"; Launched dump] ++ rest)%list)
  /\ (plain_dir (cwd w) = true -> folder = cwd w ++ "/dump_foo").
Proof.
  intros Ho Hd Po Pd Hfree folder dump restore.
  assert (B : build_commands parse_uri w origin destination None
              = ([Getcwd (cwd w); PathExists folder false], Return (dump, restore))).
  { rewrite (build_commands_valid parse_uri w origin destination None
               (single "a" 27017 "u1" "p1" "foo") (single "b" 27017 "u2" "p2" "bar")
               "foo" "a" (Some 27017%Z) "b" (Some 27017%Z)
               Ho Hd Po Pd eq_refl eq_refl eq_refl Hfree).
    unfold dump_command_of, restore_command_of, spec_dump_command,
      spec_restore_command, collection_flag, collection_file.
    cbn [truthy fst snd single username password database str_of_optstr].
    subst dump restore folder. unfold dump_path.
    change (str_of_optint (Some 27017%Z)) with "27017".
    cbn [append]. rewrite ?append_empty_r. reflexivity. }
  split; [exact B | split; [|split]].
  - rewrite (main_runs parse_uri w origin destination None _ _ B). cbn [fst].
    destruct (run_commands_prints w dump restore) as [rest E].
    exists rest. rewrite E. reflexivity.
  - intros Hclean.
    rewrite (main_runs parse_uri w origin destination None _ _ B). cbn [fst].
    destruct (run_commands_starts w dump restore) as [rest E].
    { subst dump folder.
      rewrite !has_nul_append, (has_nul_join (cwd w) "dump_foo" Hclean eq_refl).
      reflexivity. }
    exists rest. rewrite E. reflexivity.
  - intros Hplain. apply (dump_path_plain w "foo" Hplain).
Qed.

Lemma commands_without_collection_example :
  build_commands example_parse_uri (fresh_world 0)
    "mongodb://u1:p1@a:27017/foo" "mongodb://u2:p2@b:27017/bar" None
  = ([Getcwd "/home/user"; PathExists "/home/user/dump_foo" false],
     Return
       ("mongodump -h a:27017 -u u1 -p p1 -d foo -o /home/user/dump_foo/",
        "mongorestore -h b:27017 -d bar -u u2 -p p2 /home/user/dump_foo/foo")).
Proof.
  apply (commands_without_collection example_parse_uri (fresh_world 0)
           "mongodb://u1:p1@a:27017/foo" "mongodb://u2:p2@b:27017/bar"
           eq_refl eq_refl eq_refl eq_refl eq_refl).
Defined.

(** C2: for two URIs with one host each, an origin database [foo] and the
    collection [users], both commands are the commands of the run without a
    collection followed by [ -c users], except that the path
    [mongorestore] reads is [<cwd>/dump_foo/foo/users.bson] where it was
    [<cwd>/dump_foo/foo]; these are the commands the run prints, and the
    first is what it starts first when it holds no NUL byte. *)
Theorem commands_with_collection_users
    (parse_uri : string -> result uri_dict) (w : world)
    (origin destination : string) (o d : uri_dict)
    (h1 h2 : string) (p1 p2 : option Z) :
  startswith origin "mongodb://" = true ->
  startswith destination "mongodb://" = true ->
  parse_uri origin = inr o ->
  parse_uri destination = inr d ->
  database o = Some "foo" ->
  nodelist o = [(h1, p1)] ->
  nodelist d = [(h2, p2)] ->
  exists_path w (os_path_join (cwd w) "dump_foo") = false ->
  let folder := os_path_join (cwd w) "dump_foo" in
  let tested := [Getcwd (cwd w); PathExists folder false] in
  let target :=
    "mongorestore -h " ++ h2 ++ ":" ++ str_of_optint p2
    ++ " -d " ++ str_of_optstr (database d)
    ++ " -u " ++ str_of_optstr (username d)
    ++ " -p " ++ str_of_optstr (password d) ++ " " in
  exists dump,
    build_commands parse_uri w origin destination None
    = (tested, Return (dump, target ++ folder ++ "/foo"))
    /\ build_commands parse_uri w origin destination (Some "users")
       = (tested,
          Return (dump ++ " -c users",
                  (target ++ folder ++ "/foo/users.bson") ++ " -c users"))
    /\ (exists rest,
          fst (main parse_uri w origin destination (Some "users"))
          = (tested
             ++ [Printed (dump ++ " -c users");
                 Printed ((target ++ folder ++ "/foo/users.bson") ++ " -c users");
                 Printed "** Importing from origin **"] ++ rest)%list)
    /\ (has_nul dump = false ->
        exists rest,
          fst (main parse_uri w origin destination (Some "users"))
          = (tested
             ++ [Printed (dump ++ " -c users");
                 Printed ((target ++ folder ++ "/foo/users.bson") ++ " -c users");
                 Printed "** Importing from origin **";
                 Launched (dump ++ " -c users")] ++ rest)%list).
Proof.
  intros Ho Hd Po Pd Hdb No Nd Hfree folder tested target.
  exists (dump_command_of w o (h1, p1) "foo" None).
  assert (B : build_commands parse_uri w origin destination (Some "users")
              = (tested,
                 Return (dump_command_of w o (h1, p1) "foo" None ++ " -c users",
                         (target ++ folder ++ "/foo/users.bson") ++ " -c users"))).
  { rewrite (build_commands_valid parse_uri w origin destination (Some "users")
               o d "foo" h1 p1 h2 p2 Ho Hd Po Pd Hdb No Nd Hfree).
    unfold dump_command_of, restore_command_of, spec_dump_command,
      spec_restore_command, collection_flag, collection_file.
    subst tested target folder. unfold dump_path.
    cbn [truthy fst snd String.eqb Ascii.eqb Bool.eqb negb str_of_optstr].
    repeat rewrite !append_assoc. cbn [append].
    rewrite ?append_empty_r. reflexivity. }
  split; [|split; [|split]].
  - rewrite (build_commands_valid parse_uri w origin destination None
               o d "foo" h1 p1 h2 p2 Ho Hd Po Pd Hdb No Nd Hfree).
    unfold restore_command_of, spec_restore_command, collection_flag,
      collection_file.
    subst tested target folder. unfold dump_path.
    cbn [truthy fst snd].
    repeat rewrite !append_assoc. cbn [append].
    rewrite ?append_empty_r. reflexivity.
  - exact B.
  - rewrite (main_runs parse_uri w origin destination (Some "users") _ _ B).
    cbn [fst].
    destruct (run_commands_prints w
                (dump_command_of w o (h1, p1) "foo" None ++ " -c users")
                ((target ++ folder ++ "/foo/users.bson") ++ " -c users"))
      as [rest E].
    exists rest. rewrite E. reflexivity.
  - intros Hclean.
    rewrite (main_runs parse_uri w origin destination (Some "users") _ _ B).
    cbn [fst].
    destruct (run_commands_starts w
                (dump_command_of w o (h1, p1) "foo" None ++ " -c users")
                ((target ++ folder ++ "/foo/users.bson") ++ " -c users"))
      as [rest E].
    { rewrite has_nul_append, Hclean. reflexivity. }
    exists rest. rewrite E. reflexivity.
Qed.

Lemma commands_with_collection_users_example :
  exists dump,
    build_commands example_parse_uri (fresh_world 0)
      "mongodb://u1:p1@a:27017/foo" "mongodb://u2:p2@b:27017/bar" None
    = ([Getcwd "/home/user"; PathExists "/home/user/dump_foo" false],
       Return (dump,
               "mongorestore -h b:27017 -d bar -u u2 -p p2 /home/user/dump_foo/foo"))
    /\ build_commands example_parse_uri (fresh_world 0)
         "mongodb://u1:p1@a:27017/foo" "mongodb://u2:p2@b:27017/bar"
         (Some "users")
       = ([Getcwd "/home/user"; PathExists "/home/user/dump_foo" false],
          Return (dump ++ " -c users",
                  "mongorestore -h b:27017 -d bar -u u2 -p p2 /home/user/dump_foo/foo/users.bson -c users")).
Proof.
  destruct (commands_with_collection_users example_parse_uri (fresh_world 0)
              "mongodb://u1:p1@a:27017/foo" "mongodb://u2:p2@b:27017/bar"
              (single "a" 27017 "u1" "p1" "foo") (single "b" 27017 "u2" "p2" "bar")
              "a" "b" (Some 27017%Z) (Some 27017%Z)
              eq_refl eq_refl eq_refl eq_refl eq_refl eq_refl eq_refl eq_refl)
    as [dump [E1 [E2 _]]].
  exists dump. split; [exact E1 | exact E2].
Defined.

(** C9: a call of [main] with the empty string for the collection is the
    call without a collection: the same commands are built and the same run
    follows; for valid URIs no [ -c] is appended and [mongorestore] reads
    [<cwd>/dump_<db>/<db>]. *)
Theorem empty_collection_is_no_collection
    (parse_uri : string -> result uri_dict) (w : world)
    (origin destination : string) :
  build_commands parse_uri w origin destination (Some "")
  = build_commands parse_uri w origin destination None
  /\ main parse_uri w origin destination (Some "")
     = main parse_uri w origin destination None
  /\ forall (o d : uri_dict) (db h1 h2 : string) (p1 p2 : option Z),
       startswith origin "mongodb://" = true ->
       startswith destination "mongodb://" = true ->
       parse_uri origin = inr o ->
       parse_uri destination = inr d ->
       database o = Some db ->
       nodelist o = [(h1, p1)] ->
       nodelist d = [(h2, p2)] ->
       exists_path w (os_path_join (cwd w) ("dump_" ++ db)) = false ->
       build_commands parse_uri w origin destination (Some "")
       = ([Getcwd (cwd w);
           PathExists (os_path_join (cwd w) ("dump_" ++ db)) false],
          Return
            ("mongodump -h " ++ h1 ++ ":" ++ str_of_optint p1
             ++ " -u " ++ str_of_optstr (username o)
             ++ " -p " ++ str_of_optstr (password o)
             ++ " -d " ++ db
             ++ " -o " ++ os_path_join (cwd w) ("dump_" ++ db) ++ "/",
             "mongorestore -h " ++ h2 ++ ":" ++ str_of_optint p2
             ++ " -d " ++ str_of_optstr (database d)
             ++ " -u " ++ str_of_optstr (username d)
             ++ " -p " ++ str_of_optstr (password d)
             ++ " " ++ os_path_join (cwd w) ("dump_" ++ db) ++ "/" ++ db)).
Proof.
  split; [reflexivity | split; [reflexivity|]].
  intros o d db h1 h2 p1 p2 Ho Hd Po Pd Hdb No Nd Hfree.
  rewrite (build_commands_valid parse_uri w origin destination (Some "")
             o d db h1 p1 h2 p2 Ho Hd Po Pd Hdb No Nd Hfree).
  unfold dump_command_of, restore_command_of, spec_dump_command,
    spec_restore_command, collection_flag, collection_file, dump_path.
  cbn [truthy fst snd String.eqb negb].
  rewrite !append_empty_r. repeat rewrite !append_assoc. reflexivity.
Qed.

Lemma empty_collection_is_no_collection_example :
  build_commands example_parse_uri (fresh_world 0)
    "mongodb://u1:p1@a:27017/foo" "mongodb://u2:p2@b:27017/bar" (Some "")
  = ([Getcwd "/home/user"; PathExists "/home/user/dump_foo" false],
     Return
       ("mongodump -h a:27017 -u u1 -p p1 -d foo -o /home/user/dump_foo/",
        "mongorestore -h b:27017 -d bar -u u2 -p p2 /home/user/dump_foo/foo")).
Proof.
  apply (proj2 (proj2 (empty_collection_is_no_collection example_parse_uri
                         (fresh_world 0) "mongodb://u1:p1@a:27017/foo"
                         "mongodb://u2:p2@b:27017/bar"))
           (single "a" 27017 "u1" "p1" "foo") (single "b" 27017 "u2" "p2" "bar")
           "foo" "a" "b" (Some 27017%Z) (Some 27017%Z)
           eq_refl eq_refl eq_refl eq_refl eq_refl eq_refl eq_refl eq_refl).
Defined.

(** ** The run *)




Lemma process_events_app (t t' : trace) :
  process_events (t ++ t')%list = (process_events t ++ process_events t')%list.
Proof. unfold process_events. apply filter_app. Qed.

Lemma build_commands_starts_nothing
    (parse_uri : string -> result uri_dict) (w : world)
    (origin destination : string) (collection : option string) :
  process_events (fst (build_commands parse_uri w origin destination collection))
  = [].
Proof.
  destruct (build_commands_shape parse_uri w origin destination collection)
    as [_ [E|[p E]]]; rewrite E; reflexivity.
Qed.

(** C4: in every run the events of child processes are, in this order, the
    start of the dump, its exit, the start of the restore, its exit, each
    exit being the one the system reports for that child.  The run stops
    before the first of them when validation fails or the dump command
    cannot be started, after the first when the dump never exits, after the
    second when the restore command cannot be started, after the third when
    the restore never exits, and has all four when it returns.  The restore
    is never started unless the dump was started and has exited. *)
Theorem restore_starts_after_dump_exits
    (parse_uri : string -> result uri_dict) (w : world)
    (origin destination : string) (collection : option string) :
  let run := main parse_uri w origin destination collection in
  (process_events (fst run) = [] /\ exists e, snd run = Raise e)
  \/ exists t dump restore,
       build_commands parse_uri w origin destination collection
       = (t, Return (dump, restore))
       /\ ((process_events (fst run) = []
            /\ has_nul dump = true
            /\ snd run = Raise ValueError)
           \/ (process_events (fst run) = [Launched dump]
               /\ has_nul dump = false
               /\ child_exit w dump = None
               /\ snd run = Blocked)
           \/ (exists s1,
                 process_events (fst run) = [Launched dump; Exited dump s1]
                 /\ has_nul dump = false
                 /\ child_exit w dump = Some s1
                 /\ has_nul restore = true
                 /\ snd run = Raise ValueError)
           \/ (exists s1,
                 process_events (fst run)
                 = [Launched dump; Exited dump s1; Launched restore]
                 /\ has_nul dump = false
                 /\ child_exit w dump = Some s1
                 /\ has_nul restore = false
                 /\ child_exit w restore = None
                 /\ snd run = Blocked)
           \/ (exists s1 s2,
                 process_events (fst run)
                 = [Launched dump; Exited dump s1;
                    Launched restore; Exited restore s2]
                 /\ has_nul dump = false
                 /\ child_exit w dump = Some s1
                 /\ has_nul restore = false
                 /\ child_exit w restore = Some s2
                 /\ snd run = Return tt)).
Proof.
  intros run. subst run.
  pose proof (build_commands_starts_nothing parse_uri w origin destination collection)
    as Hquiet.
  pose proof (proj1 (build_commands_shape parse_uri w origin destination collection))
    as Hlive.
  destruct (build_commands parse_uri w origin destination collection)
    as [t [[dump restore]|e|]] eqn:B; cbn [fst snd] in Hquiet, Hlive.
  - right. exists t, dump, restore. split; [reflexivity|].
    rewrite (main_runs parse_uri w origin destination collection _ _ B).
    cbn [fst snd]. rewrite process_events_app, Hquiet, run_commands_cases.
    cbn [app].
    destruct (has_nul dump) eqn:N1;
      [|destruct (child_exit w dump) as [s1|] eqn:E1;
        [destruct (has_nul restore) eqn:N2;
         [|destruct (child_exit w restore) as [s2|] eqn:E2]|]];
      cbn [fst snd].
    + left. now repeat split.
    + right. right. left. exists s1. now repeat split.
    + do 4 right. exists s1, s2. now repeat split.
    + do 3 right. left. exists s1. now repeat split.
    + right. left. now repeat split.
  - left. rewrite (main_raises parse_uri w origin destination collection _ _ B).
    cbn [fst snd]. split; [exact Hquiet | now exists e].
  - now contradiction Hlive.
Qed.

(** ** The whole of validation, case by case *)

Section Decided.

Variable parse_uri : string -> result uri_dict.
Variable w : world.

Lemma parse_both_ok origin destination o d :
  parse_both parse_uri origin destination = inr (o, d) ->
  parse_uri origin = inr o /\ parse_uri destination = inr d.
Proof.
  unfold parse_both.
  destruct (parse_uri origin) as [e|o'];
    [destruct e; discriminate|].
  destruct (parse_uri destination) as [e|d'];
    [destruct e; discriminate|].
  cbn [res_bind]. intros H. injection H as -> ->. now split.
Qed.

Lemma parse_both_raises origin destination e :
  parse_both parse_uri origin destination = inl e ->
  (e = InvalidURIError
   /\ (parse_uri origin = inl InvalidURI
       \/ parse_uri destination = inl InvalidURI))
  \/ (e <> InvalidURI
      /\ (parse_uri origin = inl e
          \/ exists o, parse_uri origin = inr o
                       /\ parse_uri destination = inl e)).
Proof.
  unfold parse_both.
  destruct (parse_uri origin) as [e1|o] eqn:Po.
  - cbn [res_bind].
    destruct e1; intros H; injection H as <-;
      solve [ left; split; [reflexivity | now left]
            | right; split; [discriminate | now left] ].
  - cbn [res_bind].
    destruct (parse_uri destination) as [e2|d] eqn:Pd; [|discriminate].
    destruct e2; intros H; injection H as <-;
      solve [ left; split; [reflexivity | now right]
            | right; split; [discriminate | right; now exists o] ].
Qed.

(** [build_commands] as a decision table: every way validation can end,
    in the order the checks are made. *)
Lemma build_commands_decided origin destination collection :
  build_commands parse_uri w origin destination collection
  = if negb (startswith origin "mongodb://" && startswith destination "mongodb://")
    then ([], Raise InvalidInputError)
    else
      match parse_both parse_uri origin destination with
      | inl e => ([], Raise e)
      | inr (o, d) =>
          match database o with
          | None => ([], Raise TypeError)
          | Some db =>
              if exists_path w (dump_path w db) then
                ([Getcwd (cwd w); PathExists (dump_path w db) true],
                 Raise (PathCollisionError (dump_path w db)))
              else
                match nodelist o, nodelist d with
                | [n1], [n2] =>
                    ([Getcwd (cwd w); PathExists (dump_path w db) false],
                     Return (dump_command_of w o n1 db collection,
                             restore_command_of w d n2 db collection))
                | _, _ =>
                    ([Getcwd (cwd w); PathExists (dump_path w db) false],
                     Raise UnsupportedTopologyError)
                end
          end
      end.
Proof.
  destruct (negb (startswith origin "mongodb://" && startswith destination "mongodb://"))
    eqn:Hs.
  - unfold build_commands. rewrite Hs. reflexivity.
  - apply negb_false_iff, andb_prop in Hs. destruct Hs as [Ho Hd].
    destruct (parse_both parse_uri origin destination) as [e|[o d]] eqn:Pb.
    + unfold build_commands. rewrite Ho, Hd, Pb. reflexivity.
    + destruct (parse_both_ok _ _ _ _ Pb) as [Po Pd].
      rewrite (build_commands_parsed parse_uri w origin destination collection
                 o d Ho Hd Po Pd).
      destruct (database o) as [db|] eqn:Hdb; [|reflexivity].
      destruct (exists_path w (dump_path w db)) eqn:Hex; [reflexivity|].
      destruct (nodelist o) as [|[h1 p1] [|n1' no]] eqn:No;
        try reflexivity;
        destruct (nodelist d) as [|[h2 p2] [|n2' nd]] eqn:Nd;
        try reflexivity.
      cbn [List.length Nat.eqb negb orb].
      apply (build_commands_valid parse_uri w origin destination collection
               o d db h1 p1 h2 p2 Ho Hd Po Pd Hdb No Nd Hex).
Qed.

End Decided.

(** ** How a run can end *)

Lemma main_decided
    (parse_uri : string -> result uri_dict) (w : world)
    (origin destination : string) (collection : option string) :
  main parse_uri w origin destination collection
  = match build_commands parse_uri w origin destination collection with
    | (t, Return commands) =>
        ((t ++ fst (run_commands w commands))%list, snd (run_commands w commands))
    | (t, Raise e) => (t, Raise e)
    | (t, Blocked) => (t, Blocked)
    end.
Proof.
  destruct (build_commands parse_uri w origin destination collection)
    as [t [commands|e|]] eqn:B.
  - now apply main_runs.
  - now apply main_raises.
  - unfold main. now rewrite B.
Qed.

(** X2: an exception of the parser that is not [InvalidURI] is not
    caught: with both schemes right, when the parser raises [e] on the
    origin, or on the destination after the origin was parsed, [main]
    raises that same [e], before it touches the system. *)
Theorem parser_exception_passes_through
    (parse_uri : string -> result uri_dict) (w : world)
    (origin destination : string) (collection : option string) (e : py_exn) :
  startswith origin "mongodb://" = true ->
  startswith destination "mongodb://" = true ->
  e <> InvalidURI ->
  parse_uri origin = inl e
  \/ (exists o, parse_uri origin = inr o /\ parse_uri destination = inl e) ->
  main parse_uri w origin destination collection = ([], Raise e).
Proof.
  intros Ho Hd Hne H. apply main_raises.
  rewrite build_commands_decided, Ho, Hd. cbn [andb negb].
  assert (Pb : parse_both parse_uri origin destination = inl e).
  { unfold parse_both.
    destruct H as [Po|[o [Po Pd]]]; rewrite Po; cbn [res_bind];
      [|rewrite Pd]; destruct e; try reflexivity; now contradiction Hne. }
  rewrite Pb. reflexivity.
Qed.

Lemma parser_exception_passes_through_example :
  main (fun _ => inl (OtherError "ConfigurationError")) (fresh_world 0)
    "mongodb://a,,b/foo" "mongodb://u2:p2@b:27017/bar" None
  = ([], Raise (OtherError "ConfigurationError")).
Proof.
  apply (parser_exception_passes_through
           (fun _ => inl (OtherError "ConfigurationError")) (fresh_world 0)
           "mongodb://a,,b/foo" "mongodb://u2:p2@b:27017/bar" None
           (OtherError "ConfigurationError")).
  - reflexivity.
  - reflexivity.
  - discriminate.
  - left. reflexivity.
Defined.

(** X3: [main] returns only after every check has passed and both tools
    have exited: both strings have the scheme, both parse, the origin names
    a database, each node list has exactly one entry, the dump path did not
    exist, and the trace is that of the complete run. *)
Theorem main_returns_only_when_valid
    (parse_uri : string -> result uri_dict) (w : world)
    (origin destination : string) (collection : option string) (t : trace) :
  main parse_uri w origin destination collection = (t, Return tt) ->
  startswith origin "mongodb://" = true
  /\ startswith destination "mongodb://" = true
  /\ exists o d db n1 n2 s1 s2,
       parse_uri origin = inr o
       /\ parse_uri destination = inr d
       /\ database o = Some db
       /\ nodelist o = [n1]
       /\ nodelist d = [n2]
       /\ exists_path w (dump_path w db) = false
       /\ child_exit w (dump_command_of w o n1 db collection) = Some s1
       /\ child_exit w (restore_command_of w d n2 db collection) = Some s2
       /\ t = [Getcwd (cwd w); PathExists (dump_path w db) false;
               Printed (dump_command_of w o n1 db collection);
               Printed (restore_command_of w d n2 db collection);
               Printed "** Importing from origin **";
               Launched (dump_command_of w o n1 db collection);
               Exited (dump_command_of w o n1 db collection) s1;
               Printed "** Exporting to destination **";
               Launched (restore_command_of w d n2 db collection);
               Exited (restore_command_of w d n2 db collection) s2;
               Printed "Done!"].
Proof.
  rewrite main_decided, build_commands_decided.
  destruct (negb (startswith origin "mongodb://" && startswith destination "mongodb://"))
    eqn:Hs; [discriminate|].
  apply negb_false_iff, andb_prop in Hs. destruct Hs as [Ho Hd].
  destruct (parse_both parse_uri origin destination) as [e0|[o d]] eqn:Pb;
    [discriminate|].
  destruct (parse_both_ok _ _ _ _ _ Pb) as [Po Pd].
  destruct (database o) as [db|] eqn:Hdb; [|discriminate].
  destruct (exists_path w (dump_path w db)) eqn:Hex; [discriminate|].
  destruct (nodelist o) as [|n1 [|n1' no]] eqn:No; try discriminate;
    destruct (nodelist d) as [|n2 [|n2' nd]] eqn:Nd; try discriminate.
  rewrite run_commands_cases.
  destruct (has_nul (dump_command_of w o n1 db collection)); [discriminate|].
  destruct (child_exit w (dump_command_of w o n1 db collection)) as [s1|] eqn:E1;
    [|discriminate].
  destruct (has_nul (restore_command_of w d n2 db collection)); [discriminate|].
  destruct (child_exit w (restore_command_of w d n2 db collection)) as [s2|] eqn:E2;
    [|discriminate].
  cbn [fst snd app]. intros H. injection H as <-.
  split; [exact Ho | split; [exact Hd|]].
  exists o, d, db, n1, n2, s1, s2. now repeat split.
Qed.

Lemma main_returns_only_when_valid_example :
  startswith "mongodb://u1:p1@a:27017/foo" "mongodb://" = true
  /\ startswith "mongodb://u2:p2@b:27017/bar" "mongodb://" = true.
Proof.
  destruct (main_returns_only_when_valid example_parse_uri (fresh_world 3)
              "mongodb://u1:p1@a:27017/foo" "mongodb://u2:p2@b:27017/bar"
              (Some "users") _ eq_refl)
    as [Ho [Hd _]].
  split; [exact Ho | exact Hd].
Defined.

(** X4: there is no timeout.  After validation has passed, when the dump
    tool is started (its command holds no NUL byte) and never exits, the
    run waits for ever after starting it: the restore tool is not started
    and [Done!] is not printed; when the dump tool exits and the restore
    tool is started and never exits, the run waits for ever after starting
    the restore tool. *)
Theorem hung_tool_blocks_run
    (parse_uri : string -> result uri_dict) (w : world)
    (origin destination : string) (collection : option string)
    (t : trace) (dump restore : string) :
  build_commands parse_uri w origin destination collection
  = (t, Return (dump, restore)) ->
  has_nul dump = false ->
  (child_exit w dump = None ->
   main parse_uri w origin destination collection
   = ((t ++ [Printed dump; Printed restore;
             Printed "** Importing from origin **"; Launched dump])%list,
      Blocked))
  /\ (forall s1,
        child_exit w dump = Some s1 ->
        has_nul restore = false ->
        child_exit w restore = None ->
        main parse_uri w origin destination collection
        = ((t ++ [Printed dump; Printed restore;
                  Printed "** Importing from origin **";
                  Launched dump; Exited dump s1;
                  Printed "** Exporting to destination **";
                  Launched restore])%list,
           Blocked)).
Proof.
  intros B N1.
  rewrite (main_runs parse_uri w origin destination collection _ _ B),
    run_commands_cases, N1.
  split.
  - intros E1. rewrite E1. reflexivity.
  - intros s1 E1 N2 E2. rewrite E1, N2, E2. reflexivity.
Qed.

Lemma hung_tool_blocks_run_dump :
  main example_parse_uri
    {| cwd := "/home/user"; exists_path := fun _ => false;
       child_exit := fun _ => None |}
    "mongodb://u1:p1@a:27017/foo" "mongodb://u2:p2@b:27017/bar" None
  = ([Getcwd "/home/user"; PathExists "/home/user/dump_foo" false;
      Printed "mongodump -h a:27017 -u u1 -p p1 -d foo -o /home/user/dump_foo/";
      Printed "mongorestore -h b:27017 -d bar -u u2 -p p2 /home/user/dump_foo/foo";
      Printed "** Importing from origin **";
      Launched "mongodump -h a:27017 -u u1 -p p1 -d foo -o /home/user/dump_foo/"],
     Blocked).
Proof.
  apply (proj1 (hung_tool_blocks_run example_parse_uri
                  {| cwd := "/home/user"; exists_path := fun _ => false;
                     child_exit := fun _ => None |}
                  "mongodb://u1:p1@a:27017/foo" "mongodb://u2:p2@b:27017/bar"
                  None
                  [Getcwd "/home/user"; PathExists "/home/user/dump_foo" false]
                  "mongodump -h a:27017 -u u1 -p p1 -d foo -o /home/user/dump_foo/"
                  "mongorestore -h b:27017 -d bar -u u2 -p p2 /home/user/dump_foo/foo"
                  eq_refl eq_refl)).
  reflexivity.
Defined.

(** ** What a collection changes *)

Lemma truthy_nonempty (c : string) : c <> "" -> truthy (Some c) = true.
Proof.
  intros H. unfold truthy. apply negb_true_iff, String.eqb_neq. exact H.
Qed.

Lemma dump_command_of_collection (w : world) (o : uri_dict)
    (n : string * option Z) (db c : string) :
  c <> "" ->
  dump_command_of w o n db (Some c)
  = dump_command_of w o n db None ++ " -c " ++ c.
Proof.
  intros H.
  unfold dump_command_of, spec_dump_command, collection_flag.
  rewrite (truthy_nonempty c H). cbn [truthy str_of_optstr].
  repeat rewrite !append_assoc. cbn [append]. reflexivity.
Qed.

Lemma restore_command_of_collection (w : world) (d : uri_dict)
    (n : string * option Z) (db c : string) :
  c <> "" ->
  restore_command_of w d n db (Some c)
  = restore_command_of w d n db None ++ "/" ++ c ++ ".bson" ++ " -c " ++ c.
Proof.
  intros H.
  unfold restore_command_of, spec_restore_command, collection_flag,
    collection_file.
  rewrite (truthy_nonempty c H). cbn [truthy str_of_optstr].
  repeat rewrite !append_assoc. cbn [append]. reflexivity.
Qed.

(** X5: whatever the collection is, as long as it is not empty, it goes
    into the commands as it is: when the run without a collection builds
    [dump] and [restore], the run with collection [c] passes the same
    checks and builds [dump -c c] and [restore/c.bson -c c]; nothing in [c]
    is quoted or escaped for the shell. *)
Theorem collection_appended_verbatim
    (parse_uri : string -> result uri_dict) (w : world)
    (origin destination c : string) (t : trace) (dump restore : string) :
  c <> "" ->
  build_commands parse_uri w origin destination None
  = (t, Return (dump, restore)) ->
  build_commands parse_uri w origin destination (Some c)
  = (t, Return (dump ++ " -c " ++ c,
                restore ++ "/" ++ c ++ ".bson" ++ " -c " ++ c)).
Proof.
  intros Hc. rewrite !build_commands_decided.
  destruct (negb (startswith origin "mongodb://" && startswith destination "mongodb://"));
    [discriminate|].
  destruct (parse_both parse_uri origin destination) as [e0|[o d]];
    [discriminate|].
  destruct (database o) as [db|]; [|discriminate].
  destruct (exists_path w (dump_path w db)); [discriminate|].
  destruct (nodelist o) as [|n1 [|n1' no]]; try discriminate;
    destruct (nodelist d) as [|n2 [|n2' nd]]; try discriminate.
  intros H. injection H as <- <- <-.
  now rewrite (dump_command_of_collection w o n1 db c Hc),
    (restore_command_of_collection w d n2 db c Hc).
Qed.

Lemma collection_appended_verbatim_shell :
  build_commands example_parse_uri (fresh_world 0)
    "mongodb://u1:p1@a:27017/foo" "mongodb://u2:p2@b:27017/bar"
    (Some "x; echo $HOME")
  = ([Getcwd "/home/user"; PathExists "/home/user/dump_foo" false],
     Return
       ("mongodump -h a:27017 -u u1 -p p1 -d foo -o /home/user/dump_foo/"
        ++ " -c " ++ "x; echo $HOME",
        "mongorestore -h b:27017 -d bar -u u2 -p p2 /home/user/dump_foo/foo"
        ++ "/" ++ "x; echo $HOME" ++ ".bson" ++ " -c " ++ "x; echo $HOME")).
Proof.
  apply (collection_appended_verbatim example_parse_uri (fresh_world 0)
           "mongodb://u1:p1@a:27017/foo" "mongodb://u2:p2@b:27017/bar"
           "x; echo $HOME").
  - discriminate.
  - reflexivity.
Defined.

(** X6: the collection plays no part in validation: a run that is
    rejected with some collection is rejected in the same way, after the
    same events, with any other. *)
Theorem validation_ignores_collection
    (parse_uri : string -> result uri_dict) (w : world)
    (origin destination : string) (c c' : option string)
    (t : trace) (e : py_exn) :
  build_commands parse_uri w origin destination c = (t, Raise e) ->
  build_commands parse_uri w origin destination c' = (t, Raise e).
Proof.
  rewrite !build_commands_decided.
  destruct (negb (startswith origin "mongodb://" && startswith destination "mongodb://"));
    [trivial|].
  destruct (parse_both parse_uri origin destination) as [e0|[o d]];
    [trivial|].
  destruct (database o) as [db|]; [|trivial].
  destruct (exists_path w (dump_path w db)); [trivial|].
  destruct (nodelist o) as [|n1 [|n1' no]]; trivial;
    destruct (nodelist d) as [|n2 [|n2' nd]]; trivial.
  discriminate.
Qed.

Lemma validation_ignores_collection_example :
  build_commands example_parse_uri used_world
    "mongodb://u1:p1@a:27017/foo" "mongodb://u2:p2@b:27017/bar" (Some "users")
  = ([Getcwd "/home/user"; PathExists "/home/user/dump_foo" true],
     Raise (PathCollisionError "/home/user/dump_foo")).
Proof.
  apply (validation_ignores_collection example_parse_uri used_world
           "mongodb://u1:p1@a:27017/foo" "mongodb://u2:p2@b:27017/bar"
           None (Some "users")).
  reflexivity.
Defined.

(** ** What each command depends on *)

(** X7: the dump command and the checks before it do not depend on the
    destination, beyond its passing validation: two runs from the same
    origin that both build their commands build the same dump command
    after the same events. *)
Theorem dump_command_ignores_destination
    (parse_uri : string -> result uri_dict) (w : world)
    (origin destination destination' : string) (collection : option string)
    (t t' : trace) (dump dump' restore restore' : string) :
  build_commands parse_uri w origin destination collection
  = (t, Return (dump, restore)) ->
  build_commands parse_uri w origin destination' collection
  = (t', Return (dump', restore')) ->
  t = t' /\ dump = dump'.
Proof.
  rewrite !build_commands_decided.
  destruct (negb (startswith origin "mongodb://" && startswith destination "mongodb://"));
    [discriminate|].
  destruct (negb (startswith origin "mongodb://" && startswith destination' "mongodb://"));
    [discriminate|].
  destruct (parse_both parse_uri origin destination) as [e0|[o d]] eqn:Pb;
    [discriminate|].
  destruct (parse_both parse_uri origin destination') as [e0|[o' d']] eqn:Pb';
    [discriminate|].
  destruct (parse_both_ok _ _ _ _ _ Pb) as [Po _].
  destruct (parse_both_ok _ _ _ _ _ Pb') as [Po' _].
  assert (o' = o) as -> by congruence.
  destruct (database o) as [db|]; [|discriminate].
  destruct (exists_path w (dump_path w db)); [discriminate|].
  destruct (nodelist o) as [|n1 [|n1' no]]; try discriminate;
    destruct (nodelist d) as [|n2 [|n2' nd]]; try discriminate;
    destruct (nodelist d') as [|n3 [|n3' nd']]; try discriminate.
  intros H H'. injection H as <- <- _. injection H' as <- <- _.
  now split.
Qed.

Lemma dump_command_ignores_destination_example :
  [Getcwd "/home/user"; PathExists "/home/user/dump_foo" false]
  = [Getcwd "/home/user"; PathExists "/home/user/dump_foo" false]
  /\ "mongodump -h a:27017 -u u1 -p p1 -d foo -o /home/user/dump_foo/"
     = "mongodump -h a:27017 -u u1 -p p1 -d foo -o /home/user/dump_foo/".
Proof.
  apply (dump_command_ignores_destination example_parse_uri (fresh_world 0)
           "mongodb://u1:p1@a:27017/foo" "mongodb://u2:p2@b:27017/bar"
           "mongodb://u1:p1@a:27017/foo" None
           _ _ _ _
           "mongorestore -h b:27017 -d bar -u u2 -p p2 /home/user/dump_foo/foo"
           "mongorestore -h a:27017 -d foo -u u1 -p p1 /home/user/dump_foo/foo");
    reflexivity.
Defined.

(** X8: of the origin, the restore command uses the database name and
    nothing else: two runs to the same destination, from origins with the
    same database name (and whatever hosts and credentials), that both
    build their commands build the same restore command. *)
Theorem restore_command_uses_origin_database_only
    (parse_uri : string -> result uri_dict) (w : world)
    (origin origin' destination : string) (collection : option string)
    (o o' : uri_dict)
    (t t' : trace) (dump dump' restore restore' : string) :
  parse_uri origin = inr o ->
  parse_uri origin' = inr o' ->
  database o = database o' ->
  build_commands parse_uri w origin destination collection
  = (t, Return (dump, restore)) ->
  build_commands parse_uri w origin' destination collection
  = (t', Return (dump', restore')) ->
  restore = restore'.
Proof.
  intros Po Po' Hdb. rewrite !build_commands_decided.
  destruct (negb (startswith origin "mongodb://" && startswith destination "mongodb://"));
    [discriminate|].
  destruct (negb (startswith origin' "mongodb://" && startswith destination "mongodb://"));
    [discriminate|].
  destruct (parse_both parse_uri origin destination) as [e0|[o1 d]] eqn:Pb;
    [discriminate|].
  destruct (parse_both parse_uri origin' destination) as [e0|[o1' d']] eqn:Pb';
    [discriminate|].
  destruct (parse_both_ok _ _ _ _ _ Pb) as [Q Pd].
  destruct (parse_both_ok _ _ _ _ _ Pb') as [Q' Pd'].
  assert (o1 = o) as -> by congruence.
  assert (o1' = o') as -> by congruence.
  assert (d' = d) as -> by congruence.
  rewrite <- Hdb.
  destruct (database o) as [db|]; [|discriminate].
  destruct (exists_path w (dump_path w db)); [discriminate|].
  destruct (nodelist o) as [|n1 [|n1' no]]; try discriminate;
    destruct (nodelist o') as [|n3 [|n3' no']]; try discriminate;
    destruct (nodelist d) as [|n2 [|n2' nd]]; try discriminate.
  intros H H'. injection H as _ _ <-. injection H' as _ _ <-.
  reflexivity.
Qed.

Lemma restore_command_uses_origin_database_only_example :
  "mongorestore -h b:27017 -d bar -u u2 -p p2 /home/user/dump_foo/foo"
  = "mongorestore -h b:27017 -d bar -u u2 -p p2 /home/user/dump_foo/foo".
Proof.
  apply (restore_command_uses_origin_database_only
           (fun s => if s =? "mongodb://u9:p9@z:1/foo"
                     then inr (single "z" 1 "u9" "p9" "foo")
                     else example_parse_uri s)
           (fresh_world 0)
           "mongodb://u1:p1@a:27017/foo" "mongodb://u9:p9@z:1/foo"
           "mongodb://u2:p2@b:27017/bar" None
           (single "a" 27017 "u1" "p1" "foo") (single "z" 1 "u9" "p9" "foo")
           [Getcwd "/home/user"; PathExists "/home/user/dump_foo" false]
           [Getcwd "/home/user"; PathExists "/home/user/dump_foo" false]
           "mongodump -h a:27017 -u u1 -p p1 -d foo -o /home/user/dump_foo/"
           "mongodump -h z:1 -u u9 -p p9 -d foo -o /home/user/dump_foo/");
    reflexivity.
Defined.

(** ** Paths *)

Lemma dump_folder_joined (dir db : string) :
  os_path_join dir ("dump_" ++ db) = dir ++ "dump_" ++ db
  \/ os_path_join dir ("dump_" ++ db) = dir ++ "/dump_" ++ db.
Proof.
  unfold os_path_join. cbn [startswith prefix append].
  change (if Ascii.ascii_dec "/" "d" then prefix "" ("ump_" ++ db) else false)
    with false.
  cbn iota.
  destruct ((dir =? "") || endswith dir "/"); [now left | now right].
Qed.

(** X9: the only path a run ever tests is the dump folder of the origin
    database: wherever [os.path.exists] occurs in the trace of [main], the
    origin was parsed, it names a database [db], and the path is the
    current directory followed by [dump_<db>], with a separator between
    them unless the directory already ends with one (or is empty); the
    database name is never taken for an absolute path. *)
Theorem tested_path_is_dump_folder
    (parse_uri : string -> result uri_dict) (w : world)
    (origin destination : string) (collection : option string)
    (p : string) (b : bool) :
  In (PathExists p b) (fst (main parse_uri w origin destination collection)) ->
  exists o db,
    parse_uri origin = inr o
    /\ database o = Some db
    /\ p = os_path_join (cwd w) ("dump_" ++ db)
    /\ (p = cwd w ++ "dump_" ++ db \/ p = cwd w ++ "/dump_" ++ db)
    /\ b = exists_path w p.
Proof.
  rewrite main_decided, build_commands_decided.
  destruct (negb (startswith origin "mongodb://" && startswith destination "mongodb://"));
    [intros []|].
  destruct (parse_both parse_uri origin destination) as [e0|[o d]] eqn:Pb;
    [intros []|].
  destruct (parse_both_ok _ _ _ _ _ Pb) as [Po _].
  destruct (database o) as [db|] eqn:Hdb; [|intros []].
  assert (Found : forall rest,
             (forall q c, ~ In (PathExists q c) rest) ->
             In (PathExists p b)
                (Getcwd (cwd w)
                 :: PathExists (dump_path w db) (exists_path w (dump_path w db))
                 :: rest) ->
             exists o db,
               parse_uri origin = inr o
               /\ database o = Some db
               /\ p = os_path_join (cwd w) ("dump_" ++ db)
               /\ (p = cwd w ++ "dump_" ++ db \/ p = cwd w ++ "/dump_" ++ db)
               /\ b = exists_path w p).
  { intros rest Hrest [H|[H|H]].
    - discriminate H.
    - injection H as <- <-. exists o, db.
      repeat split; try assumption; try reflexivity.
      apply dump_folder_joined.
    - now apply Hrest in H. }
  destruct (exists_path w (dump_path w db)) eqn:Hex.
  - cbn [fst]. apply Found. intros q c [].
  - destruct (nodelist o) as [|n1 [|n1' no]];
      try (cbn [fst]; apply Found; intros q c []);
      destruct (nodelist d) as [|n2 [|n2' nd]];
      try (cbn [fst]; apply Found; intros q c []).
    rewrite run_commands_cases. cbn [fst app].
    apply Found. intros q c.
    destruct (has_nul (dump_command_of w o n1 db collection));
      [|destruct (child_exit w (dump_command_of w o n1 db collection));
        [destruct (has_nul (restore_command_of w d n2 db collection));
         [|destruct (child_exit w (restore_command_of w d n2 db collection))]|]];
      cbn [fst In]; intros H;
      repeat (destruct H as [H|H]; [discriminate H|]); exact H.
Qed.

Lemma tested_path_is_dump_folder_example :
  exists o db,
    example_parse_uri "mongodb://u1:p1@a:27017/foo" = inr o
    /\ database o = Some db
    /\ "/home/user/dump_foo" = os_path_join (cwd (fresh_world 0)) ("dump_" ++ db).
Proof.
  destruct (tested_path_is_dump_folder example_parse_uri (fresh_world 0)
              "mongodb://u1:p1@a:27017/foo" "mongodb://u2:p2@b:27017/bar"
              None "/home/user/dump_foo" false)
    as [o [db [Po [Hdb [Hp _]]]]].
  - simpl. right. left. reflexivity.
  - exists o, db. now repeat split.
Defined.

(** ** The completion message *)

Lemma last_event_of (t : trace) (e f : event) :
  last (t ++ [e]) f = e.
Proof. apply last_last. Qed.

Lemma last_event_after (t rest : trace) (e f : event) :
  last (t ++ e :: rest) f = last (e :: rest) f.
Proof.
  induction t as [|x t IH]; [reflexivity|].
  cbn [app]. rewrite <- IH. cbn [last].
  destruct (t ++ e :: rest)%list eqn:E; [|reflexivity].
  now destruct t.
Qed.

(** X10: [Done!] is the last thing a run does exactly when [main]
    returns: a run that is rejected, or that waits on a tool for ever, does
    not end with the completion message, and a run that returns does. *)
Theorem done_printed_iff_returned
    (parse_uri : string -> result uri_dict) (w : world)
    (origin destination : string) (collection : option string) :
  snd (main parse_uri w origin destination collection) = Return tt
  <-> exists t,
        fst (main parse_uri w origin destination collection)
        = (t ++ [Printed "Done!"])%list.
Proof.
  rewrite main_decided.
  destruct (build_commands_shape parse_uri w origin destination collection)
    as [Hlive Hshape].
  destruct (build_commands parse_uri w origin destination collection)
    as [t0 [[dump restore]|e|]]; cbn [fst snd] in *.
  - rewrite run_commands_cases.
    destruct (has_nul dump);
      [|destruct (child_exit w dump) as [s1|];
        [destruct (has_nul restore);
         [|destruct (child_exit w restore) as [s2|]]|]];
      cbn [fst snd];
      try (split; [discriminate|]; intros [t E]; exfalso;
           apply (f_equal (fun l => last l (Getcwd ""))) in E;
           rewrite last_event_of, last_event_after in E;
           cbn [last] in E; discriminate E).
    split; [intros _|reflexivity].
    exists (t0 ++ [Printed dump; Printed restore;
                   Printed "** Importing from origin **";
                   Launched dump; Exited dump s1;
                   Printed "** Exporting to destination **";
                   Launched restore; Exited restore s2])%list.
    rewrite <- app_assoc. reflexivity.
  - split; [discriminate|]. intros [t E]. exfalso.
    apply (f_equal (fun l => last l (Getcwd ""))) in E.
    rewrite last_event_of in E.
    destruct Hshape as [H|[p H]]; rewrite H in E; discriminate E.
  - now contradiction Hlive.
Qed.

(** ** Schemes that are not accepted *)

(** X11: a [mongodb+srv://] URI is never accepted, as origin or as
    destination: the run is rejected with the scheme error before the
    parser is called. *)
Theorem srv_uri_rejected
    (parse_uri : string -> result uri_dict) (w : world)
    (rest other : string) (collection : option string) :
  main parse_uri w ("mongodb+srv://" ++ rest) other collection
  = ([], Raise InvalidInputError)
  /\ main parse_uri w other ("mongodb+srv://" ++ rest) collection
     = ([], Raise InvalidInputError).
Proof.
  split; apply main_raises, build_commands_bad_scheme;
    [left | right]; reflexivity.
Qed.

(** ** Fields the URI does not give *)

(** X12: a field the parser returns as [None] is written into the command
    as the word [None]: for URIs without credentials both commands carry
    [-u None -p None], and a destination without a database gives
    [-d None]; the run is not rejected. *)
Theorem missing_fields_written_as_None
    (parse_uri : string -> result uri_dict) (w : world)
    (origin destination : string) (collection : option string)
    (o d : uri_dict) (db h1 h2 : string) (p1 p2 : option Z) :
  startswith origin "mongodb://" = true ->
  startswith destination "mongodb://" = true ->
  parse_uri origin = inr o ->
  parse_uri destination = inr d ->
  database o = Some db ->
  nodelist o = [(h1, p1)] ->
  nodelist d = [(h2, p2)] ->
  exists_path w (dump_path w db) = false ->
  username o = None -> password o = None ->
  username d = None -> password d = None -> database d = None ->
  build_commands parse_uri w origin destination collection
  = ([Getcwd (cwd w); PathExists (dump_path w db) false],
     Return
       ("mongodump -h " ++ h1 ++ ":" ++ str_of_optint p1
        ++ " -u None -p None -d " ++ db ++ " -o " ++ dump_path w db ++ "/"
        ++ collection_flag collection,
        "mongorestore -h " ++ h2 ++ ":" ++ str_of_optint p2
        ++ " -d None -u None -p None " ++ dump_path w db ++ "/" ++ db
        ++ collection_file collection ++ collection_flag collection)).
Proof.
  intros Ho Hd Po Pd Hdb No Nd Hfree Uo Wo Ud Wd Dd.
  rewrite (build_commands_valid parse_uri w origin destination collection
             o d db h1 p1 h2 p2 Ho Hd Po Pd Hdb No Nd Hfree).
  unfold dump_command_of, restore_command_of, spec_dump_command,
    spec_restore_command.
  rewrite Uo, Wo, Ud, Wd, Dd. cbn [fst snd str_of_optstr].
  repeat rewrite !append_assoc. cbn [append]. reflexivity.
Qed.

Lemma missing_fields_written_as_None_example :
  build_commands
    (fun s => inr {| nodelist := [("localhost", Some 27017%Z)];
                     username := None;
                     password := None;
                     database := if s =? "mongodb://localhost/foo"
                                 then Some "foo" else None |})
    (fresh_world 0) "mongodb://localhost/foo" "mongodb://localhost" None
  = ([Getcwd "/home/user"; PathExists "/home/user/dump_foo" false],
     Return
       ("mongodump -h localhost:27017 -u None -p None -d foo -o /home/user/dump_foo/",
        "mongorestore -h localhost:27017 -d None -u None -p None /home/user/dump_foo/foo")).
Proof.
  apply (missing_fields_written_as_None
           (fun s => inr {| nodelist := [("localhost", Some 27017%Z)];
                            username := None;
                            password := None;
                            database := if s =? "mongodb://localhost/foo"
                                        then Some "foo" else None |})
           (fresh_world 0) "mongodb://localhost/foo" "mongodb://localhost" None
           {| nodelist := [("localhost", Some 27017%Z)];
              username := None; password := None; database := Some "foo" |}
           {| nodelist := [("localhost", Some 27017%Z)];
              username := None; password := None; database := None |}
           "foo" "localhost" "localhost" (Some 27017%Z) (Some 27017%Z));
    reflexivity.
Defined.
